(** * Financial Horizon Estimator: the calculation engine

    A shallow embedding of [FinancialEngine] (streamlit_app.py, lines 12-84)
    and the properties of its four calculations.

    Numbers.  Ages and the dependents count are Python ints ([Z]).  Money
    amounts and rates are Python numbers; they are modelled as exact
    rationals ([Q], compared with [==]), so the arithmetic below is the
    arithmetic the source writes down, without binary rounding.

    Errors.  A Python scalar division by zero (and zero raised to a negative
    power) raises [ZeroDivisionError]; the calculations therefore live in a
    small error monad.  numpy arrays do not raise on a division by zero, they
    produce inf or nan and a RuntimeWarning; [Q] has no such values, so that
    outcome is recorded as [NonFinite]. *)

From Stdlib Require Import ZArith QArith Qpower Qminmax Lia Lqa String Bool.

Local Open Scope Q_scope.

(** ** Python values and errors *)

Module Py.

Inductive error : Set :=
| ZeroDivisionError   (* raised by the interpreter *)
| NonFinite.          (* numpy: the value is inf or nan *)

Inductive result (A : Type) : Type :=
| Ok (a : A)
| Raise (e : error).

Arguments Ok {A} a.
Arguments Raise {A} e.

Definition bind {A B : Type} (m : result A) (k : A -> result B) : result B :=
  match m with
  | Ok a => k a
  | Raise e => Raise e
  end.

(** [x < y] and [x == y] on numbers, as booleans. *)
Definition ltb (x y : Q) : bool := negb (Qle_bool y x).
Definition eqb (x y : Q) : bool := Qeq_bool x y.

(** [x / y]: true division of Python scalars. *)
Definition div (x y : Q) : result Q :=
  if eqb y 0 then Raise ZeroDivisionError else Ok (x / y).

(** [x ** n] with an int exponent. *)
Definition pow (x : Q) (n : Z) : result Q :=
  if (n <? 0)%Z && eqb x 0 then Raise ZeroDivisionError else Ok (x ^ n).

(** [max(a, b)]: the first argument unless the second is strictly greater. *)
Definition max (a b : Q) : Q := if ltb a b then b else a.

End Py.

Import Py.

Notation "x <- m ;; k" := (Py.bind m (fun x => k))
  (at level 61, m at next level, right associativity).

(** ** numpy_financial *)

Module npf.

(** Element-wise division of numpy arrays: no exception, inf or nan on a
    zero divisor. *)
Definition np_div (x y : Q) : result Q :=
  if eqb y 0 then Raise NonFinite else Ok (x / y).

(** Element-wise power of numpy float arrays. *)
Definition np_pow (x : Q) (n : Z) : result Q :=
  if (n <? 0)%Z && eqb x 0 then Raise NonFinite else Ok (x ^ n).

(** Modelled from the spec: [numpy_financial.pmt] is a third-party function
    that streamlit_app.py imports and calls; its body is not under src/.
    Section 4.3 of the spec describes it as the standard payment formula
    for an ordinary annuity (payments at the end of a period), with the
    zero-rate case [(fv + pv) / nper] handled without a division by zero.
    The definition follows the way numpy_financial computes it:

      temp = (1 + rate)**nper
      mask = (rate == 0)
      masked_rate = np.where(mask, 1, rate)
      fact = np.where(mask != 0, nper,
                      (1 + masked_rate*when)*(temp - 1)/masked_rate)
      return -(fv + pv*temp)/fact

    with [when = 0] (the default, 'end').  [np.where] evaluates both of
    its branches, so the division by [masked_rate] is performed for a zero
    rate as well. *)
Definition pmt (rate : Q) (nper : Z) (pv fv : Q) : result Q :=
  let when := 0 in
  temp <- np_pow (1 + rate) nper ;;
  let mask := eqb rate 0 in
  let masked_rate := if mask then 1 else rate in
  other <- np_div ((1 + masked_rate * when) * (temp - 1)) masked_rate ;;
  let fact := if mask then inject_Z nper else other in
  np_div (- (fv + pv * temp)) fact.

End npf.

(** ** The engine *)

Record FinancialEngine : Set := {
  age : Z;
  income : Q;
  dependents : Z;
  debt : Q;
  savings : Q;
  retire_age : Z;
  inflation_rate : Q;
  investment_return : Q;
  SAFE_WITHDRAWAL_RATE : Q;
  INCOME_REPLACEMENT_RATIO : Q;
  INSURANCE_DISCOUNT_RATE : Q
}.

(** The constructor: stores the arguments, the two rates divided by 100.0,
    and sets the three constants.  It has no [raise] and no check. *)
Definition __init__ (age : Z) (income : Q) (dependents : Z) (debt savings : Q)
    (retire_age : Z) (inflation_rate investment_return : Q)
    : result FinancialEngine :=
  inflation_rate' <- Py.div inflation_rate 100 ;;
  investment_return' <- Py.div investment_return 100 ;;
  Ok {| age := age;
        income := income;
        dependents := dependents;
        debt := debt;
        savings := savings;
        retire_age := retire_age;
        inflation_rate := inflation_rate';
        investment_return := investment_return';
        SAFE_WITHDRAWAL_RATE := 0.04;
        INCOME_REPLACEMENT_RATIO := 0.75;
        INSURANCE_DISCOUNT_RATE := 0.03 |}.

(** Attribute assignment on a built engine ([engine.debt = d], ...). *)
Definition set_dependents (d : Z) (self : FinancialEngine) : FinancialEngine :=
  {| age := age self; income := income self; dependents := d;
     debt := debt self; savings := savings self; retire_age := retire_age self;
     inflation_rate := inflation_rate self;
     investment_return := investment_return self;
     SAFE_WITHDRAWAL_RATE := SAFE_WITHDRAWAL_RATE self;
     INCOME_REPLACEMENT_RATIO := INCOME_REPLACEMENT_RATIO self;
     INSURANCE_DISCOUNT_RATE := INSURANCE_DISCOUNT_RATE self |}.

Definition set_debt (d : Q) (self : FinancialEngine) : FinancialEngine :=
  {| age := age self; income := income self; dependents := dependents self;
     debt := d; savings := savings self; retire_age := retire_age self;
     inflation_rate := inflation_rate self;
     investment_return := investment_return self;
     SAFE_WITHDRAWAL_RATE := SAFE_WITHDRAWAL_RATE self;
     INCOME_REPLACEMENT_RATIO := INCOME_REPLACEMENT_RATIO self;
     INSURANCE_DISCOUNT_RATE := INSURANCE_DISCOUNT_RATE self |}.

Definition set_savings (s : Q) (self : FinancialEngine) : FinancialEngine :=
  {| age := age self; income := income self; dependents := dependents self;
     debt := debt self; savings := s; retire_age := retire_age self;
     inflation_rate := inflation_rate self;
     investment_return := investment_return self;
     SAFE_WITHDRAWAL_RATE := SAFE_WITHDRAWAL_RATE self;
     INCOME_REPLACEMENT_RATIO := INCOME_REPLACEMENT_RATIO self;
     INSURANCE_DISCOUNT_RATE := INSURANCE_DISCOUNT_RATE self |}.

Definition set_INSURANCE_DISCOUNT_RATE (r : Q) (self : FinancialEngine)
    : FinancialEngine :=
  {| age := age self; income := income self; dependents := dependents self;
     debt := debt self; savings := savings self; retire_age := retire_age self;
     inflation_rate := inflation_rate self;
     investment_return := investment_return self;
     SAFE_WITHDRAWAL_RATE := SAFE_WITHDRAWAL_RATE self;
     INCOME_REPLACEMENT_RATIO := INCOME_REPLACEMENT_RATIO self;
     INSURANCE_DISCOUNT_RATE := r |}.

Definition calc_insurance_gap (self : FinancialEngine) : result (Q * Q) :=
  let years_support := if (dependents self >? 0)%Z then 20%Z else 0%Z in
  if (years_support =? 0)%Z then Ok (0, 0) else
  let annual_support := income self * 0.75 in
  p <- Py.pow (1 + INSURANCE_DISCOUNT_RATE self) (- years_support) ;;
  pv_factor <- Py.div (1 - p) (INSURANCE_DISCOUNT_RATE self) ;;
  let gross_need := annual_support * pv_factor in
  let total_need := gross_need + debt self - savings self in
  Ok (Py.max 0 total_need, Py.max 0 gross_need).

Definition calc_retirement_target (self : FinancialEngine) : result (Q * Z) :=
  let years_to_retire := (retire_age self - age self)%Z in
  if (years_to_retire <=? 0)%Z then Ok (0, 0%Z) else
  let current_annual_need := income self * INCOME_REPLACEMENT_RATIO self in
  p <- Py.pow (1 + inflation_rate self) years_to_retire ;;
  let future_annual_need := current_annual_need * p in
  target_corpus <- Py.div future_annual_need (SAFE_WITHDRAWAL_RATE self) ;;
  Ok (target_corpus, years_to_retire).

Definition calc_monthly_savings_req (self : FinancialEngine)
    (target_corpus : Q) (years_to_retire : Z) : result Q :=
  if (years_to_retire <=? 0)%Z then Ok 0 else
  monthly_rate <- Py.div (investment_return self) 12 ;;
  let months := (years_to_retire * 12)%Z in
  r <- npf.pmt monthly_rate months (- savings self) target_corpus ;;
  let monthly_req := r * -1 in
  Ok monthly_req.

(** The score [get_risk_profile] accumulates before it picks a label. *)
Definition risk_score (self : FinancialEngine) : result Z :=
  let years := (retire_age self - age self)%Z in
  debt_ratio <- Py.div (debt self)
                  (if Py.ltb 0 (income self) then income self else 1) ;;
  let score := 0%Z in
  let score :=
    if (years >? 20)%Z then (score + 3)%Z
    else if (years >? 10)%Z then (score + 2)%Z
    else (score + 1)%Z in
  let score :=
    if Py.ltb debt_ratio 0.3 then (score + 2)%Z
    else if Py.ltb debt_ratio 1.0 then (score + 1)%Z
    else (score - 1)%Z in
  Ok score.

Definition get_risk_profile (self : FinancialEngine) : result string :=
  score <- risk_score self ;;
  if (score >=? 4)%Z then Ok "High (Growth Focused)"%string
  else if (score >=? 3)%Z then Ok "Medium (Balanced)"%string
  else Ok "Low (Preservation Focused)"%string.

(** The profile of the source's [main] (the widgets' default values). *)
Definition sample : result FinancialEngine :=
  __init__ 35 85000 2 25000 40000 65 2.5 7.

Definition sample_engine : FinancialEngine :=
  {| age := 35; income := 85000; dependents := 2; debt := 25000;
     savings := 40000; retire_age := 65;
     inflation_rate := 2.5 / 100; investment_return := 7 / 100;
     SAFE_WITHDRAWAL_RATE := 0.04;
     INCOME_REPLACEMENT_RATIO := 0.75;
     INSURANCE_DISCOUNT_RATE := 0.03 |}.

(** ** Reference formulas

    The closed formulas of the specification (sections 4.1 to 4.4), written
    as it words them, to compare the calculations against. *)

(** The three policy constants at their documented values. *)
Definition default_constants (self : FinancialEngine) : Prop :=
  SAFE_WITHDRAWAL_RATE self == 0.04 /\
  INCOME_REPLACEMENT_RATIO self == 0.75 /\
  INSURANCE_DISCOUNT_RATE self == 0.03.

(** [pv_factor = (1 - (1 + r)^(-n)) / r] at [r = 0.03], [n = 20]. *)
Definition spec_pv_factor : Q := (1 - (1 + 0.03) ^ (-20)) / 0.03.

Definition spec_gross_need (self : FinancialEngine) : Q :=
  (income self * 0.75) * spec_pv_factor.

Definition spec_target_corpus (self : FinancialEngine) : Q :=
  (income self * 0.75)
  * (1 + inflation_rate self) ^ (retire_age self - age self) / 0.04.

(** The payment formula of section 4.3, in a rate, a number of months, the
    savings and the target. *)
Definition spec_payment (monthly_rate : Q) (months : Z) (savings target_corpus : Q)
    : Q :=
  monthly_rate * (target_corpus - savings * (1 + monthly_rate) ^ months)
  / ((1 + monthly_rate) ^ months - 1).

(** ** The parts of the risk score *)

Definition High : string := "High (Growth Focused)".
Definition Medium : string := "Medium (Balanced)".
Definition Low : string := "Low (Preservation Focused)".

(** What the first if-chain of [get_risk_profile] adds to the score. *)
Definition horizon_points (years : Z) : Z :=
  if (years >? 20)%Z then 3%Z
  else if (years >? 10)%Z then 2%Z
  else 1%Z.

(** What its second if-chain adds. *)
Definition leverage_points (debt_ratio : Q) : Z :=
  if Py.ltb debt_ratio 0.3 then 2%Z
  else if Py.ltb debt_ratio 1.0 then 1%Z
  else (-1)%Z.

(** The divisor of [debt_ratio]: the income, or 1 when it is not positive. *)
Definition debt_ratio (self : FinancialEngine) : Q :=
  debt self / (if Py.ltb 0 (income self) then income self else 1).

(** The label chosen for a score. *)
Definition label_of_score (score : Z) : string :=
  if (score >=? 4)%Z then High
  else if (score >=? 3)%Z then Medium
  else Low.

(** ** Sample engines *)

(** An argument list that is invalid in every way section 7 lists: the age is
    past the retirement age, income, debt and savings are negative, and there
    are nine dependents. *)
Definition invalid_engine : FinancialEngine :=
  {| age := 70; income := -1; dependents := 9; debt := -5; savings := -3;
     retire_age := 65;
     inflation_rate := 2.5 / 100; investment_return := 7 / 100;
     SAFE_WITHDRAWAL_RATE := 0.04;
     INCOME_REPLACEMENT_RATIO := 0.75;
     INSURANCE_DISCOUNT_RATE := 0.03 |}.

(** The sample profile with an expected return of 0%. *)
Definition zero_return_engine : FinancialEngine :=
  {| age := 35; income := 85000; dependents := 2; debt := 25000;
     savings := 40000; retire_age := 65;
     inflation_rate := 2.5 / 100; investment_return := 0 / 100;
     SAFE_WITHDRAWAL_RATE := 0.04;
     INCOME_REPLACEMENT_RATIO := 0.75;
     INSURANCE_DISCOUNT_RATE := 0.03 |}.

(** ** More attribute assignments *)

Definition set_income (i : Q) (self : FinancialEngine) : FinancialEngine :=
  {| age := age self; income := i; dependents := dependents self;
     debt := debt self; savings := savings self; retire_age := retire_age self;
     inflation_rate := inflation_rate self;
     investment_return := investment_return self;
     SAFE_WITHDRAWAL_RATE := SAFE_WITHDRAWAL_RATE self;
     INCOME_REPLACEMENT_RATIO := INCOME_REPLACEMENT_RATIO self;
     INSURANCE_DISCOUNT_RATE := INSURANCE_DISCOUNT_RATE self |}.

Definition set_inflation_rate (i : Q) (self : FinancialEngine)
    : FinancialEngine :=
  {| age := age self; income := income self; dependents := dependents self;
     debt := debt self; savings := savings self; retire_age := retire_age self;
     inflation_rate := i;
     investment_return := investment_return self;
     SAFE_WITHDRAWAL_RATE := SAFE_WITHDRAWAL_RATE self;
     INCOME_REPLACEMENT_RATIO := INCOME_REPLACEMENT_RATIO self;
     INSURANCE_DISCOUNT_RATE := INSURANCE_DISCOUNT_RATE self |}.

Definition set_retire_age (r : Z) (self : FinancialEngine) : FinancialEngine :=
  {| age := age self; income := income self; dependents := dependents self;
     debt := debt self; savings := savings self; retire_age := r;
     inflation_rate := inflation_rate self;
     investment_return := investment_return self;
     SAFE_WITHDRAWAL_RATE := SAFE_WITHDRAWAL_RATE self;
     INCOME_REPLACEMENT_RATIO := INCOME_REPLACEMENT_RATIO self;
     INSURANCE_DISCOUNT_RATE := INSURANCE_DISCOUNT_RATE self |}.

(** ** The savings account behind the payment

    The account [calc_monthly_savings_req] solves for: every month the
    balance earns the monthly rate, and the deposit is added at the end of
    the month.  [balance_after n] is the balance [n] months on. *)
Fixpoint balance_after (n : nat) (rate deposit balance : Q) : Q :=
  match n with
  | O => balance
  | S k => balance_after k rate deposit (balance * (1 + rate) + deposit)
  end.

(** ** The calculations of [main] (streamlit_app.py, lines 139-156)

    What [main] computes between reading the widgets and drawing: the engine,
    its four results in sequence, and the colour of the savings metric. *)

Record Dashboard : Set := {
  ins_gap : Q;
  ins_gross : Q;
  ret_target : Q;
  years_to_ret : Z;
  monthly_req : Q;
  risk_profile : string;
  color : string
}.

Definition main_calculations (age retire_age : Z) (income savings debt : Q)
    (dependents : Z) (inflation roi : Q) : result Dashboard :=
  engine <- __init__ age income dependents debt savings retire_age
                     inflation roi ;;
  gap <- calc_insurance_gap engine ;;
  target <- calc_retirement_target engine ;;
  monthly_req <- calc_monthly_savings_req engine (fst target) (snd target) ;;
  risk_profile <- get_risk_profile engine ;;
  monthly_income <- Py.div income 12 ;;
  let color := if Py.ltb monthly_req (monthly_income * 0.2)
               then "normal"%string else "inverse"%string in
  Ok {| ins_gap := fst gap;
        ins_gross := snd gap;
        ret_target := fst target;
        years_to_ret := snd target;
        monthly_req := monthly_req;
        risk_profile := risk_profile;
        color := color |}.

(** The bounds the widgets of [main] put on what they return (lines 127-137):
    the sliders for the two ages, the dependents and the two rates.  The
    number inputs for income, savings and debt have no bound. *)
Definition widget_values (age retire_age dependents : Z) (inflation roi : Q)
    : Prop :=
  (18 <= age <= 70)%Z /\
  (age + 1 <= retire_age <= 80)%Z /\
  (0 <= dependents <= 5)%Z /\
  (1.0 <= inflation /\ inflation <= 10.0) /\
  (1.0 <= roi /\ roi <= 12.0).

(** ** Facts about the Python operations *)

Section PyFacts.

Lemma ltb_true (x y : Q) : Py.ltb x y = true <-> x < y.
Proof.
  unfold Py.ltb. rewrite negb_true_iff.
  split; intro H.
  - apply Qnot_le_lt. intro Hle. apply Qle_bool_iff in Hle. congruence.
  - destruct (Qle_bool y x) eqn:E; [|reflexivity].
    apply Qle_bool_iff in E. exfalso. exact (Qlt_not_le _ _ H E).
Qed.

Lemma ltb_false (x y : Q) : Py.ltb x y = false <-> y <= x.
Proof.
  unfold Py.ltb. rewrite negb_false_iff. apply Qle_bool_iff.
Qed.

Lemma eqb_true (x y : Q) : Py.eqb x y = true <-> x == y.
Proof. apply Qeq_bool_iff. Qed.

Lemma eqb_false (x y : Q) : Py.eqb x y = false <-> ~ x == y.
Proof.
  unfold Py.eqb. split.
  - apply Qeq_bool_neq.
  - intro H. destruct (Qeq_bool x y) eqn:E; [|reflexivity].
    apply Qeq_bool_iff in E. contradiction.
Qed.

Lemma div_ok (x y : Q) : ~ y == 0 -> Py.div x y = Ok (x / y).
Proof.
  intro H. unfold Py.div. apply eqb_false in H. now rewrite H.
Qed.

Lemma div_zero (x y : Q) : y == 0 -> Py.div x y = Raise ZeroDivisionError.
Proof.
  intro H. unfold Py.div. apply eqb_true in H. now rewrite H.
Qed.

Lemma pow_ok_nonneg (x : Q) (n : Z) : (0 <= n)%Z -> Py.pow x n = Ok (x ^ n).
Proof.
  intro H. unfold Py.pow.
  replace (n <? 0)%Z with false by (symmetry; apply Z.ltb_ge; exact H).
  reflexivity.
Qed.

Lemma pow_ok_nonzero (x : Q) (n : Z) : ~ x == 0 -> Py.pow x n = Ok (x ^ n).
Proof.
  intro H. unfold Py.pow. apply eqb_false in H. rewrite H.
  now rewrite andb_false_r.
Qed.

Lemma max_0_nonneg (x : Q) : 0 <= Py.max 0 x.
Proof.
  unfold Py.max. destruct (Py.ltb 0 x) eqn:E.
  - apply ltb_true in E. now apply Qlt_le_weak.
  - apply Qle_refl.
Qed.

Lemma max_0_of_nonneg (x : Q) : 0 <= x -> Py.max 0 x == x.
Proof.
  intro H. unfold Py.max. destruct (Py.ltb 0 x) eqn:E.
  - reflexivity.
  - apply ltb_false in E. apply Qle_antisym; assumption.
Qed.

Lemma max_0_of_nonpos (x : Q) : x <= 0 -> Py.max 0 x == 0.
Proof.
  intro H. unfold Py.max. destruct (Py.ltb 0 x) eqn:E.
  - apply ltb_true in E. exfalso. exact (Qlt_not_le _ _ E H).
  - reflexivity.
Qed.

Lemma max_0_Qmax (x : Q) : Py.max 0 x == Qmax 0 x.
Proof.
  destruct (Qlt_le_dec x 0) as [H|H].
  - rewrite max_0_of_nonpos by now apply Qlt_le_weak.
    symmetry. apply Q.max_l. now apply Qlt_le_weak.
  - rewrite max_0_of_nonneg by assumption.
    symmetry. now apply Q.max_r.
Qed.

Lemma max_0_mono (x y : Q) : x <= y -> Py.max 0 x <= Py.max 0 y.
Proof.
  intro H. rewrite !max_0_Qmax.
  apply Q.max_le_compat_l. exact H.
Qed.

End PyFacts.

(** ** Constants *)

Section Constants.

Lemma init_ok (a : Z) (inc : Q) (dep : Z) (d s : Q) (ra : Z) (infl roi : Q) :
  __init__ a inc dep d s ra infl roi =
  Ok {| age := a; income := inc; dependents := dep; debt := d;
        savings := s; retire_age := ra;
        inflation_rate := infl / 100; investment_return := roi / 100;
        SAFE_WITHDRAWAL_RATE := 0.04;
        INCOME_REPLACEMENT_RATIO := 0.75;
        INSURANCE_DISCOUNT_RATE := 0.03 |}.
Proof. reflexivity. Qed.

Lemma init_default_constants
    (a : Z) (inc : Q) (dep : Z) (d s : Q) (ra : Z) (infl roi : Q) self :
  __init__ a inc dep d s ra infl roi = Ok self -> default_constants self.
Proof.
  rewrite init_ok. intro H. injection H as <-.
  repeat split; reflexivity.
Qed.

Lemma spec_pv_factor_pos : 0 < spec_pv_factor.
Proof. reflexivity. Qed.

End Constants.

(** ** Retirement target (section 4.2) *)

Section RetirementTarget.

Variable self : FinancialEngine.

Let years := (retire_age self - age self)%Z.

Lemma calc_retirement_target_retired :
  (years <= 0)%Z -> calc_retirement_target self = Ok (0, 0%Z).
Proof.
  intro H. unfold calc_retirement_target. fold years.
  apply Z.leb_le in H. now rewrite H.
Qed.

Lemma calc_retirement_target_working :
  (0 < years)%Z -> ~ SAFE_WITHDRAWAL_RATE self == 0 ->
  calc_retirement_target self =
  Ok (income self * INCOME_REPLACEMENT_RATIO self
        * (1 + inflation_rate self) ^ years / SAFE_WITHDRAWAL_RATE self,
      years).
Proof.
  intros Hy Hs. unfold calc_retirement_target. fold years.
  replace (years <=? 0)%Z with false by (symmetry; apply Z.leb_gt; exact Hy).
  rewrite pow_ok_nonneg by lia. cbn [Py.bind].
  rewrite div_ok by exact Hs. reflexivity.
Qed.

End RetirementTarget.

(** C1.  For a profile (non-negative income, an inflation rate of at least
    -100%) and the documented constants, [calc_retirement_target] returns
    [(0, 0)] when [retire_age - age <= 0]; otherwise it returns
    [(target_corpus, years_to_retire)] with
    [years_to_retire = retire_age - age] and
    [target_corpus = income * 0.75 * (1 + inflation_rate)^years_to_retire / 0.04].
    Both outputs are non-negative in either case. *)
Theorem calc_retirement_target_spec (self : FinancialEngine)
    (Hconst : default_constants self)
    (Hincome : 0 <= income self)
    (Hinflation : -1 <= inflation_rate self) :
  exists (target_corpus : Q) (years_to_retire : Z),
    calc_retirement_target self = Ok (target_corpus, years_to_retire) /\
    0 <= target_corpus /\ (0 <= years_to_retire)%Z /\
    ((retire_age self - age self <= 0)%Z ->
       target_corpus = 0 /\ years_to_retire = 0%Z) /\
    ((0 < retire_age self - age self)%Z ->
       years_to_retire = (retire_age self - age self)%Z /\
       target_corpus == spec_target_corpus self).
Proof.
  destruct Hconst as (Hswr & Hirr & _).
  destruct (Z_le_gt_dec (retire_age self - age self) 0) as [Hy|Hy].
  - exists 0, 0%Z.
    rewrite calc_retirement_target_retired by exact Hy.
    repeat split; try lia; apply Qle_refl.
  - assert (Hs : ~ SAFE_WITHDRAWAL_RATE self == 0)
      by (rewrite Hswr; discriminate).
    eexists _, _.
    rewrite calc_retirement_target_working by (try lia; exact Hs).
    assert (Heq : income self * INCOME_REPLACEMENT_RATIO self
                  * (1 + inflation_rate self) ^ (retire_age self - age self)
                  / SAFE_WITHDRAWAL_RATE self == spec_target_corpus self).
    { unfold spec_target_corpus. rewrite Hswr, Hirr. reflexivity. }
    split; [reflexivity|].
    split.
    { rewrite Heq. unfold spec_target_corpus.
      apply Qle_shift_div_l; [reflexivity|].
      rewrite Qmult_0_l.
      apply Qmult_le_0_compat.
      - apply Qmult_le_0_compat; [exact Hincome | discriminate].
      - apply Qpower_0_le. lra. }
    split; [lia|].
    split; [lia|].
    intros _. split; [reflexivity | exact Heq].
Qed.

Lemma calc_retirement_target_spec_witness :
  exists (target_corpus : Q) (years_to_retire : Z),
    calc_retirement_target sample_engine = Ok (target_corpus, years_to_retire) /\
    0 <= target_corpus /\ (0 <= years_to_retire)%Z /\
    ((retire_age sample_engine - age sample_engine <= 0)%Z ->
       target_corpus = 0 /\ years_to_retire = 0%Z) /\
    ((0 < retire_age sample_engine - age sample_engine)%Z ->
       years_to_retire = (retire_age sample_engine - age sample_engine)%Z /\
       target_corpus == spec_target_corpus sample_engine).
Proof.
  apply (calc_retirement_target_spec sample_engine).
  - repeat split; reflexivity.
  - discriminate.
  - discriminate.
Defined.

(** ** Insurance gap (section 4.1) *)

Section InsuranceGap.

Variable self : FinancialEngine.

Lemma calc_insurance_gap_no_dependents :
  (dependents self <= 0)%Z -> calc_insurance_gap self = Ok (0, 0).
Proof.
  intro H. unfold calc_insurance_gap.
  replace (dependents self >? 0)%Z with false
    by (symmetry; rewrite Z.gtb_ltb; apply Z.ltb_ge; exact H).
  reflexivity.
Qed.

(** With dependents, the outcome is decided by the discount rate alone. *)
Lemma calc_insurance_gap_unfold :
  (0 < dependents self)%Z ->
  calc_insurance_gap self =
  (p <- Py.pow (1 + INSURANCE_DISCOUNT_RATE self) (-20) ;;
   pv_factor <- Py.div (1 - p) (INSURANCE_DISCOUNT_RATE self) ;;
   Ok (Py.max 0 (income self * 0.75 * pv_factor + debt self - savings self),
       Py.max 0 (income self * 0.75 * pv_factor))).
Proof.
  intro H. unfold calc_insurance_gap.
  replace (dependents self >? 0)%Z with true
    by (symmetry; rewrite Z.gtb_ltb; apply Z.ltb_lt; exact H).
  reflexivity.
Qed.

Lemma calc_insurance_gap_dependents :
  (0 < dependents self)%Z ->
  ~ INSURANCE_DISCOUNT_RATE self == 0 ->
  ~ 1 + INSURANCE_DISCOUNT_RATE self == 0 ->
  let pv_factor := (1 - (1 + INSURANCE_DISCOUNT_RATE self) ^ (-20))
                   / INSURANCE_DISCOUNT_RATE self in
  calc_insurance_gap self =
  Ok (Py.max 0 (income self * 0.75 * pv_factor + debt self - savings self),
      Py.max 0 (income self * 0.75 * pv_factor)).
Proof.
  intros Hd Hr Hr1 pv_factor.
  rewrite calc_insurance_gap_unfold by exact Hd.
  rewrite pow_ok_nonzero by exact Hr1. cbn [Py.bind].
  rewrite div_ok by exact Hr. reflexivity.
Qed.

Lemma calc_insurance_gap_zero_rate :
  (0 < dependents self)%Z ->
  INSURANCE_DISCOUNT_RATE self == 0 ->
  calc_insurance_gap self = Raise ZeroDivisionError.
Proof.
  intros Hd Hr.
  rewrite calc_insurance_gap_unfold by exact Hd.
  rewrite pow_ok_nonzero by (rewrite Hr; discriminate). cbn [Py.bind].
  rewrite div_zero by exact Hr. reflexivity.
Qed.

Lemma pv_factor_default :
  INSURANCE_DISCOUNT_RATE self == 0.03 ->
  (1 - (1 + INSURANCE_DISCOUNT_RATE self) ^ (-20))
  / INSURANCE_DISCOUNT_RATE self == spec_pv_factor.
Proof.
  intro H. unfold spec_pv_factor. rewrite H. reflexivity.
Qed.

Lemma calc_insurance_gap_default :
  (0 < dependents self)%Z ->
  INSURANCE_DISCOUNT_RATE self == 0.03 ->
  exists net_need gross_need,
    calc_insurance_gap self = Ok (net_need, gross_need) /\
    net_need == Py.max 0 (spec_gross_need self + debt self - savings self) /\
    gross_need == Py.max 0 (spec_gross_need self).
Proof.
  intros Hd Hr.
  eexists _, _. split.
  - apply calc_insurance_gap_dependents.
    + exact Hd.
    + rewrite Hr. discriminate.
    + rewrite Hr. discriminate.
  - unfold spec_gross_need. rewrite !max_0_Qmax.
    rewrite (pv_factor_default Hr). split; reflexivity.
Qed.

End InsuranceGap.

(** C2.  For a profile (non-negative income) with [dependents > 0] and the
    documented constants, [calc_insurance_gap] returns [(net_need, gross_need)]
    where [gross_need = (income * 0.75) * pv_factor],
    [pv_factor = (1 - (1 + 0.03)^(-20)) / 0.03], and
    [net_need = max(0, gross_need + debt - savings)]; both are non-negative. *)
Theorem calc_insurance_gap_spec (self : FinancialEngine)
    (Hconst : default_constants self)
    (Hdependents : (dependents self > 0)%Z)
    (Hincome : 0 <= income self) :
  exists net_need gross_need : Q,
    calc_insurance_gap self = Ok (net_need, gross_need) /\
    gross_need == (income self * 0.75) * spec_pv_factor /\
    net_need == Qmax 0 (gross_need + debt self - savings self) /\
    0 <= net_need /\ 0 <= gross_need.
Proof.
  destruct Hconst as (_ & _ & Hr).
  destruct (calc_insurance_gap_default self) as (n & g & Hcalc & Hn & Hg);
    [lia | exact Hr |].
  assert (Hgross : 0 <= spec_gross_need self).
  { unfold spec_gross_need. apply Qmult_le_0_compat.
    - apply Qmult_le_0_compat; [exact Hincome | discriminate].
    - apply Qlt_le_weak, spec_pv_factor_pos. }
  rewrite max_0_of_nonneg in Hg by exact Hgross.
  exists n, g. split; [exact Hcalc|].
  split; [exact Hg|].
  split; [rewrite Hn, Hg; apply max_0_Qmax|].
  split.
  - rewrite Hn. apply max_0_nonneg.
  - rewrite Hg. exact Hgross.
Qed.

Lemma calc_insurance_gap_spec_witness :
  exists net_need gross_need : Q,
    calc_insurance_gap sample_engine = Ok (net_need, gross_need) /\
    gross_need == (income sample_engine * 0.75) * spec_pv_factor /\
    net_need == Qmax 0 (gross_need + debt sample_engine - savings sample_engine) /\
    0 <= net_need /\ 0 <= gross_need.
Proof.
  apply (calc_insurance_gap_spec sample_engine).
  - repeat split; reflexivity.
  - reflexivity.
  - discriminate.
Defined.

(** C5.  With [dependents == 0], [calc_insurance_gap] returns [(0, 0)]; and
    two profiles that differ only in a positive dependents count get the same
    result: the count matters only through being zero or not. *)
Theorem calc_insurance_gap_cliff_edge (self : FinancialEngine) :
  (dependents self = 0%Z -> calc_insurance_gap self = Ok (0, 0)) /\
  forall d1 d2 : Z, (d1 > 0)%Z -> (d2 > 0)%Z ->
    calc_insurance_gap (set_dependents d1 self) =
    calc_insurance_gap (set_dependents d2 self).
Proof.
  split.
  - intro H. apply calc_insurance_gap_no_dependents. lia.
  - intros d1 d2 H1 H2.
    rewrite !calc_insurance_gap_unfold by (cbn; lia).
    reflexivity.
Qed.

(** C7.  Between profiles that differ only in [debt], the [net_need] of
    [calc_insurance_gap] does not decrease when [debt] grows; between profiles
    that differ only in [savings], it does not increase when [savings] grow;
    and it is never below 0. *)
Theorem net_need_monotone (self : FinancialEngine)
    (Hconst : default_constants self) :
  (forall d1 d2 : Q, d1 <= d2 ->
     exists n1 g1 n2 g2,
       calc_insurance_gap (set_debt d1 self) = Ok (n1, g1) /\
       calc_insurance_gap (set_debt d2 self) = Ok (n2, g2) /\
       n1 <= n2 /\ 0 <= n1 /\ 0 <= n2) /\
  (forall s1 s2 : Q, s1 <= s2 ->
     exists n1 g1 n2 g2,
       calc_insurance_gap (set_savings s1 self) = Ok (n1, g1) /\
       calc_insurance_gap (set_savings s2 self) = Ok (n2, g2) /\
       n2 <= n1 /\ 0 <= n1 /\ 0 <= n2).
Proof.
  destruct Hconst as (_ & _ & Hr).
  destruct (Z_le_gt_dec (dependents self) 0) as [Hd|Hd].
  - split; intros x1 x2 _; exists 0, 0, 0, 0;
      rewrite !calc_insurance_gap_no_dependents by exact Hd;
      repeat split; apply Qle_refl.
  - split; intros x1 x2 Hle.
    + destruct (calc_insurance_gap_default (set_debt x1 self))
        as (n1 & g1 & E1 & Hn1 & _); [cbn; lia | exact Hr |].
      destruct (calc_insurance_gap_default (set_debt x2 self))
        as (n2 & g2 & E2 & Hn2 & _); [cbn; lia | exact Hr |].
      exists n1, g1, n2, g2.
      split; [exact E1|]. split; [exact E2|].
      rewrite Hn1, Hn2.
      split; [|split; apply max_0_nonneg].
      apply max_0_mono. unfold spec_gross_need. cbn. lra.
    + destruct (calc_insurance_gap_default (set_savings x1 self))
        as (n1 & g1 & E1 & Hn1 & _); [cbn; lia | exact Hr |].
      destruct (calc_insurance_gap_default (set_savings x2 self))
        as (n2 & g2 & E2 & Hn2 & _); [cbn; lia | exact Hr |].
      exists n1, g1, n2, g2.
      split; [exact E1|]. split; [exact E2|].
      rewrite Hn1, Hn2.
      split; [|split; apply max_0_nonneg].
      apply max_0_mono. unfold spec_gross_need. cbn. lra.
Qed.

Lemma net_need_monotone_witness :
  (exists n1 g1 n2 g2,
     calc_insurance_gap (set_debt 0 sample_engine) = Ok (n1, g1) /\
     calc_insurance_gap (set_debt 25000 sample_engine) = Ok (n2, g2) /\
     n1 <= n2 /\ 0 <= n1 /\ 0 <= n2) /\
  (exists n1 g1 n2 g2,
     calc_insurance_gap (set_savings 40000 sample_engine) = Ok (n1, g1) /\
     calc_insurance_gap (set_savings 2000000 sample_engine) = Ok (n2, g2) /\
     n2 <= n1 /\ 0 <= n1 /\ 0 <= n2).
Proof.
  assert (H : default_constants sample_engine) by (repeat split; reflexivity).
  split.
  - apply (proj1 (net_need_monotone sample_engine H) 0 25000). discriminate.
  - apply (proj2 (net_need_monotone sample_engine H) 40000 2000000). discriminate.
Defined.

(** ** Construction and constants (section 7) *)

(** C8, as stated, fails: the constructor accepts the invalid arguments and
    builds an engine, and the calculations then run on it. *)
Lemma init_accepts_invalid_inputs :
  __init__ 70 (-1) 9 (-5) (-3) 65 2.5 7 = Ok invalid_engine /\
  calc_retirement_target invalid_engine = Ok (0, 0%Z) /\
  get_risk_profile invalid_engine = Ok "Medium (Balanced)"%string /\
  exists net_need gross_need,
    calc_insurance_gap invalid_engine = Ok (net_need, gross_need).
Proof.
  split; [reflexivity|].
  split; [reflexivity|].
  split; [reflexivity|].
  eexists. eexists. reflexivity.
Qed.

(** C8, amended.  Construction never fails: [__init__] validates nothing and
    stores its arguments as given, the two rates divided by 100, next to the
    three constants.  An age at or past the retirement age is met only later,
    by the guard of [calc_retirement_target], which returns [(0, 0)]. *)
Theorem init_never_fails
    (a : Z) (inc : Q) (dep : Z) (d s : Q) (ra : Z) (infl roi : Q) :
  exists self : FinancialEngine,
    __init__ a inc dep d s ra infl roi = Ok self /\
    age self = a /\ income self = inc /\ dependents self = dep /\
    debt self = d /\ savings self = s /\ retire_age self = ra /\
    inflation_rate self = infl / 100 /\
    investment_return self = roi / 100 /\
    default_constants self /\
    ((a >= ra)%Z -> calc_retirement_target self = Ok (0, 0%Z)).
Proof.
  eexists. split; [apply init_ok|].
  cbn. repeat split.
  intro H. apply calc_retirement_target_retired. cbn. lia.
Qed.

(** C9, as stated, fails: with the discount rate overridden to 0 the engine
    of the sample profile raises the division by zero from inside
    [calc_insurance_gap]. *)
Lemma zero_discount_rate_counterexample :
  sample = Ok sample_engine /\
  INSURANCE_DISCOUNT_RATE (set_INSURANCE_DISCOUNT_RATE 0 sample_engine) = 0 /\
  calc_insurance_gap (set_INSURANCE_DISCOUNT_RATE 0 sample_engine)
  = Raise ZeroDivisionError.
Proof. repeat split. Qed.

(** C9, amended.  Overriding [INSURANCE_DISCOUNT_RATE] with 0 is not
    rejected; [calc_insurance_gap] then raises [ZeroDivisionError] at its
    [pv_factor] division when [dependents > 0], and returns [(0, 0)] when
    there are no dependents. *)
Theorem zero_discount_rate_raises (self : FinancialEngine) (r : Q)
    (Hzero : r == 0) :
  ((dependents self > 0)%Z ->
     calc_insurance_gap (set_INSURANCE_DISCOUNT_RATE r self)
     = Raise ZeroDivisionError) /\
  ((dependents self <= 0)%Z ->
     calc_insurance_gap (set_INSURANCE_DISCOUNT_RATE r self) = Ok (0, 0)).
Proof.
  split; intro Hd.
  - apply calc_insurance_gap_zero_rate; cbn; [lia | exact Hzero].
  - apply calc_insurance_gap_no_dependents. cbn. exact Hd.
Qed.

Lemma zero_discount_rate_raises_witness :
  ((dependents sample_engine > 0)%Z ->
     calc_insurance_gap (set_INSURANCE_DISCOUNT_RATE 0 sample_engine)
     = Raise ZeroDivisionError) /\
  ((dependents sample_engine <= 0)%Z ->
     calc_insurance_gap (set_INSURANCE_DISCOUNT_RATE 0 sample_engine)
     = Ok (0, 0)).
Proof.
  apply (zero_discount_rate_raises sample_engine 0). reflexivity.
Defined.

(** ** Required monthly contribution (section 4.3) *)

Section MonthlySavings.

Variable self : FinancialEngine.
Variables (target_corpus : Q) (years_to_retire : Z).
Hypothesis Hyears : (0 < years_to_retire)%Z.

Let months := (years_to_retire * 12)%Z.
Let monthly_rate := investment_return self / 12.

Lemma calc_monthly_savings_req_unfold :
  calc_monthly_savings_req self target_corpus years_to_retire =
  (r <- npf.pmt monthly_rate months (- savings self) target_corpus ;;
   Ok (r * -1)).
Proof.
  unfold calc_monthly_savings_req.
  replace (years_to_retire <=? 0)%Z with false
    by (symmetry; apply Z.leb_gt; exact Hyears).
  rewrite div_ok by discriminate. reflexivity.
Qed.

Lemma np_div_ok (x y : Q) : ~ y == 0 -> npf.np_div x y = Ok (x / y).
Proof.
  intro H. unfold npf.np_div. apply eqb_false in H. now rewrite H.
Qed.

Lemma np_pow_months (x : Q) : npf.np_pow x months = Ok (x ^ months).
Proof.
  unfold npf.np_pow.
  replace (months <? 0)%Z with false
    by (symmetry; apply Z.ltb_ge; subst months; lia).
  reflexivity.
Qed.

Lemma months_nonzero : ~ inject_Z months == 0.
Proof.
  unfold Qeq. cbn. subst months. lia.
Qed.

(** A nonzero rate: [fact] is the annuity factor. *)
Lemma pmt_rate_nonzero (pv fv : Q) :
  ~ monthly_rate == 0 ->
  ~ (1 + monthly_rate) ^ months == 1 ->
  npf.pmt monthly_rate months pv fv =
  Ok (- (fv + pv * (1 + monthly_rate) ^ months)
      / ((1 + monthly_rate * 0) * ((1 + monthly_rate) ^ months - 1)
         / monthly_rate)).
Proof.
  intros Hr Ht. unfold npf.pmt.
  rewrite np_pow_months. cbn [Py.bind].
  replace (Py.eqb monthly_rate 0) with false
    by (symmetry; apply eqb_false; exact Hr).
  rewrite np_div_ok by exact Hr. cbn [Py.bind].
  rewrite np_div_ok; [reflexivity|].
  intro H. apply Ht.
  assert (Hf : (1 + monthly_rate) ^ months - 1 == 0).
  { setoid_replace ((1 + monthly_rate) ^ months - 1)
      with (monthly_rate
            * ((1 + monthly_rate * 0) * ((1 + monthly_rate) ^ months - 1)
               / monthly_rate))
      by (field; exact Hr).
    rewrite H. ring. }
  lra.
Qed.

(** A zero rate: [fact] is the number of periods, and the division by
    [masked_rate = 1] in the branch [np.where] discards goes through. *)
Lemma pmt_rate_zero (pv fv : Q) :
  monthly_rate == 0 ->
  npf.pmt monthly_rate months pv fv =
  Ok (- (fv + pv * (1 + monthly_rate) ^ months) / inject_Z months).
Proof.
  intros Hr. unfold npf.pmt.
  rewrite np_pow_months. cbn [Py.bind].
  replace (Py.eqb monthly_rate 0) with true
    by (symmetry; apply eqb_true; exact Hr).
  rewrite np_div_ok by discriminate. cbn [Py.bind].
  rewrite np_div_ok by exact months_nonzero. reflexivity.
Qed.

End MonthlySavings.

(** C3.  With [years_to_retire > 0] and a nonzero
    [monthly_rate = investment_return / 12] (the simple division by 12),
    [calc_monthly_savings_req] returns
    [monthly_rate * (target_corpus - savings * (1 + monthly_rate)^months)
     / ((1 + monthly_rate)^months - 1)] with [months = years_to_retire * 12],
    wherever that quotient is defined, that is, its denominator is not zero
    (for a nonzero rate it vanishes only at a monthly rate of -2). *)
Theorem calc_monthly_savings_req_spec (self : FinancialEngine)
    (target_corpus : Q) (years_to_retire : Z)
    (Hyears : (years_to_retire > 0)%Z)
    (Hrate : ~ investment_return self / 12 == 0)
    (Hdefined :
       ~ (1 + investment_return self / 12) ^ (years_to_retire * 12) - 1 == 0) :
  exists monthly_req : Q,
    calc_monthly_savings_req self target_corpus years_to_retire
    = Ok monthly_req /\
    monthly_req ==
    spec_payment (investment_return self / 12) (years_to_retire * 12)
                 (savings self) target_corpus.
Proof.
  eexists.
  rewrite calc_monthly_savings_req_unfold by lia.
  rewrite pmt_rate_nonzero; [ | lia | exact Hrate | lra ].
  cbn [Py.bind].
  split; [reflexivity|].
  unfold spec_payment.
  set (rate := investment_return self / 12) in *.
  set (temp := (1 + rate) ^ (years_to_retire * 12)) in *.
  field. split; [exact Hdefined | exact Hrate].
Qed.

Lemma calc_monthly_savings_req_spec_witness :
  exists monthly_req : Q,
    calc_monthly_savings_req sample_engine 3342175 1 = Ok monthly_req /\
    monthly_req ==
    spec_payment (investment_return sample_engine / 12) (1 * 12)
                 (savings sample_engine) 3342175.
Proof.
  apply (calc_monthly_savings_req_spec sample_engine 3342175 1).
  - reflexivity.
  - vm_compute. discriminate.
  - vm_compute. discriminate.
Defined.

(** C6.  With [investment_return == 0] and [years_to_retire > 0],
    [calc_monthly_savings_req] returns
    [(target_corpus - savings) / (years_to_retire * 12)], and it returns it as
    a number: no division in the computation has a zero divisor. *)
Theorem calc_monthly_savings_req_zero_return (self : FinancialEngine)
    (target_corpus : Q) (years_to_retire : Z)
    (Hreturn : investment_return self == 0)
    (Hyears : (years_to_retire > 0)%Z) :
  exists monthly_req : Q,
    calc_monthly_savings_req self target_corpus years_to_retire
    = Ok monthly_req /\
    monthly_req ==
    (target_corpus - savings self) / inject_Z (years_to_retire * 12).
Proof.
  assert (Hrate : investment_return self / 12 == 0)
    by (rewrite Hreturn; reflexivity).
  eexists.
  rewrite calc_monthly_savings_req_unfold by lia.
  rewrite pmt_rate_zero; [ | lia | exact Hrate ].
  cbn [Py.bind].
  split; [reflexivity|].
  rewrite Hrate.
  setoid_replace (1 + 0) with 1 by ring.
  rewrite Qpower_1.
  field. apply months_nonzero. lia.
Qed.

Lemma calc_monthly_savings_req_zero_return_witness :
  exists monthly_req : Q,
    calc_monthly_savings_req zero_return_engine 3342175 30 = Ok monthly_req /\
    monthly_req ==
    (3342175 - savings zero_return_engine) / inject_Z (30 * 12).
Proof.
  apply (calc_monthly_savings_req_zero_return zero_return_engine 3342175 30);
    reflexivity.
Defined.

(** ** Risk profile (section 4.4) *)

Section RiskProfile.

Variable self : FinancialEngine.

Lemma risk_score_components :
  risk_score self =
  Ok (horizon_points (retire_age self - age self)
      + leverage_points (debt_ratio self))%Z.
Proof.
  unfold risk_score, debt_ratio.
  rewrite div_ok.
  - cbn [Py.bind]. unfold horizon_points, leverage_points.
    set (r := debt self / _).
    destruct (retire_age self - age self >? 20)%Z;
      destruct (retire_age self - age self >? 10)%Z;
      destruct (Py.ltb r 0.3); destruct (Py.ltb r 1.0); reflexivity.
  - destruct (Py.ltb 0 (income self)) eqn:E.
    + apply ltb_true in E. intro H. rewrite H in E. discriminate.
    + discriminate.
Qed.

Lemma get_risk_profile_label :
  get_risk_profile self =
  Ok (label_of_score (horizon_points (retire_age self - age self)
                      + leverage_points (debt_ratio self))).
Proof.
  unfold get_risk_profile. rewrite risk_score_components. cbn [Py.bind].
  unfold label_of_score.
  destruct (_ >=? 4)%Z; [reflexivity|].
  destruct (_ >=? 3)%Z; reflexivity.
Qed.

Lemma debt_ratio_cases :
  (0 < income self -> debt_ratio self == debt self / income self) /\
  (~ 0 < income self -> debt_ratio self == debt self / 1).
Proof.
  unfold debt_ratio. destruct (Py.ltb 0 (income self)) eqn:E.
  - apply ltb_true in E. split; [reflexivity | contradiction].
  - apply ltb_false in E. split; [|reflexivity].
    intro H. exfalso. exact (Qlt_not_le _ _ H E).
Qed.

End RiskProfile.

Lemma horizon_points_cases (years : Z) :
  ((years > 20)%Z -> horizon_points years = 3%Z) /\
  ((10 < years <= 20)%Z -> horizon_points years = 2%Z) /\
  ((years <= 10)%Z -> horizon_points years = 1%Z).
Proof.
  unfold horizon_points. rewrite !Z.gtb_ltb.
  destruct (Z.ltb_spec 20 years); destruct (Z.ltb_spec 10 years);
    repeat split; intros; solve [reflexivity | lia].
Qed.

Lemma leverage_points_cases (r : Q) :
  (r < 0.3 -> leverage_points r = 2%Z) /\
  (0.3 <= r /\ r < 1.0 -> leverage_points r = 1%Z) /\
  (1.0 <= r -> leverage_points r = (-1)%Z).
Proof.
  unfold leverage_points.
  destruct (Py.ltb r 0.3) eqn:E1; destruct (Py.ltb r 1.0) eqn:E2;
    try apply ltb_true in E1; try apply ltb_false in E1;
    try apply ltb_true in E2; try apply ltb_false in E2;
    repeat split; intros; solve [reflexivity | lra].
Qed.

Lemma label_of_score_cases (score : Z) :
  ((score >= 4)%Z -> label_of_score score = High) /\
  (label_of_score score = Medium <-> score = 3%Z) /\
  ((score <= 2)%Z -> label_of_score score = Low).
Proof.
  unfold label_of_score.
  destruct (Z.geb_spec score 4); destruct (Z.geb_spec score 3);
    repeat split; intros; try solve [reflexivity | lia | discriminate].
Qed.

(** C4.  [get_risk_profile] takes [years = retire_age - age] and
    [debt_ratio = debt / income] when [income > 0], [debt / 1] otherwise;
    the score is the sum of a horizon part (3 if [years > 20], 2 if
    [10 < years <= 20], else 1) and a leverage part (2 if [debt_ratio < 0.3],
    1 if [0.3 <= debt_ratio < 1.0], -1 if [debt_ratio >= 1.0]); the label is
    High when the score is at least 4, Medium exactly when it is 3, and Low
    when it is at most 2. *)
Theorem get_risk_profile_spec (self : FinancialEngine) :
  exists (ratio : Q) (horizon leverage : Z) (label : string),
    ((0 < income self -> ratio == debt self / income self) /\
     (~ 0 < income self -> ratio == debt self / 1)) /\
    (((retire_age self - age self > 20)%Z -> horizon = 3%Z) /\
     ((10 < retire_age self - age self <= 20)%Z -> horizon = 2%Z) /\
     ((retire_age self - age self <= 10)%Z -> horizon = 1%Z)) /\
    ((ratio < 0.3 -> leverage = 2%Z) /\
     (0.3 <= ratio /\ ratio < 1.0 -> leverage = 1%Z) /\
     (1.0 <= ratio -> leverage = (-1)%Z)) /\
    risk_score self = Ok (horizon + leverage)%Z /\
    get_risk_profile self = Ok label /\
    ((horizon + leverage >= 4)%Z -> label = High) /\
    (label = Medium <-> (horizon + leverage)%Z = 3%Z) /\
    ((horizon + leverage <= 2)%Z -> label = Low).
Proof.
  exists (debt_ratio self), (horizon_points (retire_age self - age self)),
    (leverage_points (debt_ratio self)),
    (label_of_score (horizon_points (retire_age self - age self)
                     + leverage_points (debt_ratio self))).
  split; [apply debt_ratio_cases|].
  split; [apply horizon_points_cases|].
  split; [apply leverage_points_cases|].
  split; [apply risk_score_components|].
  split; [apply get_risk_profile_label|].
  apply label_of_score_cases.
Qed.

(** C10.  The score of [get_risk_profile] is a horizon part in {1, 2, 3} plus
    a leverage part in {-1, 1, 2}, so it lies between 0 and 5; the function
    always returns, and returns one of the three labels; it returns Medium
    only for a score of exactly 3.  (This holds for every engine, so for
    every profile with non-negative debt and income.) *)
Theorem risk_score_range (self : FinancialEngine) :
  let horizon := horizon_points (retire_age self - age self) in
  let leverage := leverage_points (debt_ratio self) in
  (horizon = 1 \/ horizon = 2 \/ horizon = 3)%Z /\
  (leverage = -1 \/ leverage = 1 \/ leverage = 2)%Z /\
  exists (score : Z) (label : string),
    risk_score self = Ok score /\
    score = (horizon + leverage)%Z /\
    (0 <= score <= 5)%Z /\
    get_risk_profile self = Ok label /\
    (label = High \/ label = Medium \/ label = Low) /\
    (label = Medium -> score = 3%Z).
Proof.
  intros horizon leverage.
  assert (Hh : (horizon = 1 \/ horizon = 2 \/ horizon = 3)%Z).
  { subst horizon. unfold horizon_points.
    destruct (_ >? 20)%Z; [tauto|]. destruct (_ >? 10)%Z; tauto. }
  assert (Hl : (leverage = -1 \/ leverage = 1 \/ leverage = 2)%Z).
  { subst leverage. unfold leverage_points.
    destruct (Py.ltb _ 0.3); [tauto|]. destruct (Py.ltb _ 1.0); tauto. }
  split; [exact Hh|]. split; [exact Hl|].
  exists (horizon + leverage)%Z, (label_of_score (horizon + leverage)).
  split; [apply risk_score_components|].
  split; [reflexivity|].
  split; [lia|].
  split; [apply get_risk_profile_label|].
  split.
  - unfold label_of_score.
    destruct (_ >=? 4)%Z; [tauto|]. destruct (_ >=? 3)%Z; tauto.
  - apply label_of_score_cases.
Qed.

(** * Further properties of the engine *)

(** ** Powers *)

Section Powers.

Lemma Qpower_succ (a : Q) (n : Z) : (0 <= n)%Z -> a ^ (n + 1) == a ^ n * a.
Proof.
  intro H. rewrite Qpower_plus' by lia. now rewrite Qpower_1_r.
Qed.

(** Powers with a non-negative exponent grow with a non-negative base. *)
Lemma Qpower_base_mono (a b : Q) (n : Z) :
  (0 <= n)%Z -> 0 <= a -> a <= b -> a ^ n <= b ^ n.
Proof.
  intros Hn Ha Hab. revert n Hn.
  apply natlike_ind.
  - apply Qle_refl.
  - intros n Hn IH. unfold Z.succ. rewrite !Qpower_succ by exact Hn.
    apply Qmult_le_compat_nonneg; split; try assumption.
    apply Qpower_0_le. exact Ha.
Qed.

(** Below 1, a positive power stays below 1. *)
Lemma Qpower_lt_1 (s : Q) (k : Z) : (0 < k)%Z -> 0 <= s -> s < 1 -> s ^ k < 1.
Proof.
  intros Hk H0 H1.
  assert (Hk' : (0 <= k - 1)%Z) by lia.
  replace k with (k - 1 + 1)%Z by lia.
  rewrite Qpower_succ by exact Hk'.
  assert (Hle : s ^ (k - 1) <= 1).
  { rewrite <- (Qpower_1 (k - 1)).
    apply Qpower_base_mono; [exact Hk' | exact H0 | now apply Qlt_le_weak]. }
  assert (Hp : 0 <= s ^ (k - 1)) by (apply Qpower_0_le; exact H0).
  apply Qle_lt_trans with (1 * s).
  - apply Qmult_le_compat_r; assumption.
  - lra.
Qed.

(** An even positive power is 1 only at 1 and -1. *)
Lemma Qpower_even_eq_1 (q : Q) (k : Z) :
  (0 < k)%Z -> (q ^ (2 * k) == 1 <-> q == 1 \/ q == -1).
Proof.
  intro Hk. split.
  - intro H. rewrite Qpower_mult in H.
    assert (Hs : 0 <= q ^ 2) by apply Qsqr_nonneg.
    assert (Hsq : q ^ 2 == 1).
    { destruct (Qlt_le_dec (q ^ 2) 1) as [Hlt|Hge].
      - pose proof (Qpower_lt_1 _ _ Hk Hs Hlt) as Hc. rewrite H in Hc.
        exfalso. exact (Qlt_irrefl _ Hc).
      - destruct (Qle_lt_or_eq _ _ Hge) as [Hgt|Heq].
        + pose proof (Qpower_1_lt _ _ Hgt Hk) as Hc. rewrite H in Hc.
          exfalso. exact (Qlt_irrefl _ Hc).
        + symmetry. exact Heq. }
    assert (Hprod : (q - 1) * (q + 1) == 0).
    { setoid_replace ((q - 1) * (q + 1)) with (q ^ 2 - 1)
        by (cbn; ring).
      rewrite Hsq. ring. }
    destruct (Qmult_integral _ _ Hprod); [left | right]; lra.
  - intros [H|H]; rewrite H, Qpower_mult.
    + now rewrite !Qpower_1.
    + setoid_replace ((-1) ^ 2) with 1 by reflexivity. apply Qpower_1.
Qed.

End Powers.

(** ** When the calculations raise *)



(** ** The insurance gap under any positive discount rate *)

Section PositiveDiscountRate.

Variable self : FinancialEngine.
Hypothesis Hrate : 0 < INSURANCE_DISCOUNT_RATE self.

Lemma pv_factor_pos :
  0 < (1 - (1 + INSURANCE_DISCOUNT_RATE self) ^ (-20))
      / INSURANCE_DISCOUNT_RATE self.
Proof.
  apply Qlt_shift_div_l; [exact Hrate|]. rewrite Qmult_0_l.
  assert (H1 : 1 < (1 + INSURANCE_DISCOUNT_RATE self) ^ 20)
    by (apply Qpower_1_lt; [lra | lia]).
  assert (H2 : (1 + INSURANCE_DISCOUNT_RATE self) ^ (-20) < 1).
  { setoid_replace ((1 + INSURANCE_DISCOUNT_RATE self) ^ (-20))
      with (/ (1 + INSURANCE_DISCOUNT_RATE self) ^ 20)
      by exact (Qpower_opp (1 + INSURANCE_DISCOUNT_RATE self) 20).
    apply Qlt_shift_inv_r; lra. }
  lra.
Qed.

Lemma calc_insurance_gap_positive :
  (0 < dependents self)%Z ->
  let gross := income self * 0.75
               * ((1 - (1 + INSURANCE_DISCOUNT_RATE self) ^ (-20))
                  / INSURANCE_DISCOUNT_RATE self) in
  calc_insurance_gap self =
  Ok (Py.max 0 (gross + debt self - savings self), Py.max 0 gross).
Proof.
  intros Hd gross. apply calc_insurance_gap_dependents.
  - exact Hd.
  - intro H. rewrite H in Hrate. discriminate.
  - intro H. assert (INSURANCE_DISCOUNT_RATE self == -1) as H' by lra.
    rewrite H' in Hrate. discriminate.
Qed.

End PositiveDiscountRate.



(** ** How the retirement target moves *)

Section TargetOrder.

Variable self : FinancialEngine.
Hypothesis Hswr : 0 < SAFE_WITHDRAWAL_RATE self.
Hypothesis Hirr : 0 <= INCOME_REPLACEMENT_RATIO self.

Lemma swr_nonzero : ~ SAFE_WITHDRAWAL_RATE self == 0.
Proof. intro H. rewrite H in Hswr. discriminate. Qed.

(** The corpus formula is monotone in the income and in the power. *)
Lemma corpus_le (i i' p p' : Q) :
  0 <= i -> i <= i' -> 0 <= p -> p <= p' ->
  i * INCOME_REPLACEMENT_RATIO self * p / SAFE_WITHDRAWAL_RATE self
  <= i' * INCOME_REPLACEMENT_RATIO self * p' / SAFE_WITHDRAWAL_RATE self.
Proof.
  intros Hi Hii Hp Hpp. unfold Qdiv.
  apply Qmult_le_compat_r.
  - apply Qmult_le_compat_nonneg; split; try assumption.
    + apply Qmult_le_0_compat; assumption.
    + apply Qmult_le_compat_r; assumption.
  - apply Qinv_le_0_compat. now apply Qlt_le_weak.
Qed.

Lemma corpus_nonneg (i p : Q) :
  0 <= i -> 0 <= p ->
  0 <= i * INCOME_REPLACEMENT_RATIO self * p / SAFE_WITHDRAWAL_RATE self.
Proof.
  intros Hi Hp. unfold Qdiv.
  apply Qmult_le_0_compat.
  - apply Qmult_le_0_compat; [|exact Hp].
    apply Qmult_le_0_compat; assumption.
  - apply Qinv_le_0_compat. now apply Qlt_le_weak.
Qed.

End TargetOrder.

(** X4.  With a positive withdrawal rate and a non-negative replacement
    ratio, a higher income or a higher inflation rate (from at least -100%)
    never lowers the target corpus, and leaves the years to retirement as
    they are. *)
Theorem calc_retirement_target_monotone (self : FinancialEngine)
    (income' inflation' : Q)
    (Hswr : 0 < SAFE_WITHDRAWAL_RATE self)
    (Hirr : 0 <= INCOME_REPLACEMENT_RATIO self)
    (Hincome : 0 <= income self)
    (Hincome' : income self <= income')
    (Hinflation : -1 <= inflation_rate self)
    (Hinflation' : inflation_rate self <= inflation') :
  exists (target target' : Q) (years : Z),
    calc_retirement_target self = Ok (target, years) /\
    calc_retirement_target
      (set_inflation_rate inflation' (set_income income' self))
    = Ok (target', years) /\
    target <= target'.
Proof.
  destruct (Z_le_gt_dec (retire_age self - age self) 0) as [Hy|Hy].
  - exists 0, 0, 0%Z.
    rewrite !calc_retirement_target_retired by (cbn; exact Hy).
    repeat split. apply Qle_refl.
  - eexists _, _, _.
    split; [apply calc_retirement_target_working;
            [lia | exact (swr_nonzero self Hswr)]|].
    split; [apply (calc_retirement_target_working
                     (set_inflation_rate inflation' (set_income income' self)));
            [cbn; lia | exact (swr_nonzero self Hswr)]|].
    cbn [income inflation_rate set_income set_inflation_rate
         INCOME_REPLACEMENT_RATIO SAFE_WITHDRAWAL_RATE retire_age age].
    apply corpus_le; try assumption.
    + apply Qpower_0_le. lra.
    + apply Qpower_base_mono; [lia | lra | lra].
Qed.

Lemma calc_retirement_target_monotone_witness :
  exists (target target' : Q) (years : Z),
    calc_retirement_target sample_engine = Ok (target, years) /\
    calc_retirement_target
      (set_inflation_rate 0.03 (set_income 90000 sample_engine))
    = Ok (target', years) /\
    target <= target'.
Proof.
  apply (calc_retirement_target_monotone sample_engine 90000 0.03);
    first [reflexivity | discriminate].
Defined.

(** X5.  With a non-negative income and a non-negative inflation rate,
    retiring later never lowers the target corpus: it is 0 up to the current
    age and grows with every year after it. *)
Theorem calc_retirement_target_later (self : FinancialEngine) (retire_age' : Z)
    (Hswr : 0 < SAFE_WITHDRAWAL_RATE self)
    (Hirr : 0 <= INCOME_REPLACEMENT_RATIO self)
    (Hincome : 0 <= income self)
    (Hinflation : 0 <= inflation_rate self)
    (Hlater : (retire_age self <= retire_age')%Z) :
  exists (target target' : Q) (years years' : Z),
    calc_retirement_target self = Ok (target, years) /\
    calc_retirement_target (set_retire_age retire_age' self)
    = Ok (target', years') /\
    target <= target' /\ (years <= years')%Z.
Proof.
  assert (Hbase : 0 <= 1 + inflation_rate self) by lra.
  destruct (Z_le_gt_dec (retire_age' - age self) 0) as [Hy'|Hy'].
  - exists 0, 0, 0%Z, 0%Z.
    rewrite !calc_retirement_target_retired by (cbn; lia).
    repeat split; try lia. apply Qle_refl.
  - destruct (Z_le_gt_dec (retire_age self - age self) 0) as [Hy|Hy].
    + eexists 0, _, 0%Z, _.
      split; [apply calc_retirement_target_retired; exact Hy|].
      split; [apply (calc_retirement_target_working
                       (set_retire_age retire_age' self));
              [cbn; lia | exact (swr_nonzero self Hswr)]|].
      cbn [income inflation_rate set_retire_age
           INCOME_REPLACEMENT_RATIO SAFE_WITHDRAWAL_RATE retire_age age].
      split; [|lia].
      apply corpus_nonneg; try assumption.
      apply Qpower_0_le. exact Hbase.
    + eexists _, _, _, _.
      split; [apply calc_retirement_target_working;
              [lia | exact (swr_nonzero self Hswr)]|].
      split; [apply (calc_retirement_target_working
                       (set_retire_age retire_age' self));
              [cbn; lia | exact (swr_nonzero self Hswr)]|].
      cbn [income inflation_rate set_retire_age
           INCOME_REPLACEMENT_RATIO SAFE_WITHDRAWAL_RATE retire_age age].
      split; [|lia].
      apply corpus_le; try assumption.
      * apply Qle_refl.
      * apply Qpower_0_le. exact Hbase.
      * apply Qpower_le_compat_l; [lia | lra].
Qed.

Lemma calc_retirement_target_later_witness :
  exists (target target' : Q) (years years' : Z),
    calc_retirement_target sample_engine = Ok (target, years) /\
    calc_retirement_target (set_retire_age 67 sample_engine)
    = Ok (target', years') /\
    target <= target' /\ (years <= years')%Z.
Proof.
  apply (calc_retirement_target_later sample_engine 67);
    first [reflexivity | discriminate].
Defined.

(** ** The monthly requirement: when it is a number, and what it pays for *)

Section Payment.

Variable self : FinancialEngine.
Variables (target_corpus : Q) (years_to_retire : Z).
Hypothesis Hyears : (0 < years_to_retire)%Z.

Let months := (years_to_retire * 12)%Z.
Let rate := investment_return self / 12.
Let temp := (1 + rate) ^ months.

(** Over a whole number of years the growth factor is 1 only at the rates
    0 and -2. *)
Lemma growth_factor_eq_1 : temp == 1 <-> rate == 0 \/ rate == -2.
Proof.
  subst temp months.
  replace (years_to_retire * 12)%Z with (2 * (years_to_retire * 6))%Z by lia.
  rewrite Qpower_even_eq_1 by lia.
  split; intros [H|H]; [left | right | left | right]; lra.
Qed.

Lemma calc_monthly_savings_req_nonzero :
  ~ rate == 0 -> ~ rate == -2 ->
  exists m,
    calc_monthly_savings_req self target_corpus years_to_retire = Ok m /\
    m == rate * (target_corpus - savings self * temp) / (temp - 1).
Proof.
  intros H0 H2.
  assert (Ht : ~ temp == 1).
  { intro H. apply growth_factor_eq_1 in H. tauto. }
  eexists.
  rewrite calc_monthly_savings_req_unfold by exact Hyears.
  rewrite pmt_rate_nonzero by assumption.
  cbn [Py.bind]. split; [reflexivity|].
  fold rate. fold months. fold temp.
  field. split; [lra | exact H0].
Qed.

Lemma calc_monthly_savings_req_zero :
  rate == 0 ->
  exists m,
    calc_monthly_savings_req self target_corpus years_to_retire = Ok m /\
    m == (target_corpus - savings self * temp) / inject_Z months.
Proof.
  intros H0. eexists.
  rewrite calc_monthly_savings_req_unfold by exact Hyears.
  rewrite pmt_rate_zero by assumption.
  cbn [Py.bind]. split; [reflexivity|].
  fold rate. fold months. fold temp.
  field. apply months_nonzero. exact Hyears.
Qed.

Lemma calc_monthly_savings_req_minus2 :
  rate == -2 ->
  calc_monthly_savings_req self target_corpus years_to_retire
  = Raise NonFinite.
Proof.
  intros H2.
  assert (H0 : ~ rate == 0) by (rewrite H2; discriminate).
  assert (Ht : temp == 1) by (apply growth_factor_eq_1; now right).
  rewrite calc_monthly_savings_req_unfold by exact Hyears.
  unfold npf.pmt. rewrite np_pow_months by exact Hyears. cbn [Py.bind].
  fold rate. fold months. fold temp.
  replace (Py.eqb rate 0) with false by (symmetry; apply eqb_false; exact H0).
  rewrite np_div_ok by exact H0. cbn [Py.bind].
  unfold npf.np_div.
  replace (Py.eqb ((1 + rate * 0) * (temp - 1) / rate) 0) with true.
  - reflexivity.
  - symmetry. apply eqb_true. rewrite Ht. field. exact H0.
Qed.

End Payment.


Section Balance.

Variables (rate deposit : Q).

Lemma balance_after_closed (n : nat) (balance : Q) :
  ~ rate == 0 ->
  balance_after n rate deposit balance ==
  balance * (1 + rate) ^ Z.of_nat n
  + deposit * ((1 + rate) ^ Z.of_nat n - 1) / rate.
Proof.
  intro Hr. revert balance.
  induction n as [|n IH]; intro balance.
  - cbn. field. exact Hr.
  - cbn [balance_after]. rewrite IH.
    rewrite Nat2Z.inj_succ. unfold Z.succ.
    rewrite Qpower_succ by lia.
    field. exact Hr.
Qed.

Lemma balance_after_flat (n : nat) (balance : Q) :
  rate == 0 ->
  balance_after n rate deposit balance ==
  balance + inject_Z (Z.of_nat n) * deposit.
Proof.
  intro Hr. revert balance.
  induction n as [|n IH]; intro balance.
  - cbn. ring.
  - cbn [balance_after]. rewrite IH.
    rewrite Nat2Z.inj_succ. unfold Z.succ.
    rewrite inject_Z_plus, Hr. ring.
Qed.

End Balance.



(** For a non-negative return the requirement is the shortfall of the
    compounded savings times a positive factor that depends on the return and
    the horizon only. *)
Lemma payment_factor (ir : Q) (years_to_retire : Z) :
  0 <= ir -> (0 < years_to_retire)%Z ->
  exists c : Q,
    0 < c /\
    forall (self : FinancialEngine) (target_corpus : Q),
      investment_return self = ir ->
      exists m,
        calc_monthly_savings_req self target_corpus years_to_retire = Ok m /\
        m == (target_corpus
              - savings self * (1 + ir / 12) ^ (years_to_retire * 12)) * c.
Proof.
  intros Hir Hy.
  destruct (Qeq_dec (ir / 12) 0) as [H0|H0].
  - exists (/ inject_Z (years_to_retire * 12)). split.
    + apply Qinv_lt_0_compat. unfold Qlt. cbn. lia.
    + intros self t <-.
      destruct (calc_monthly_savings_req_zero self t years_to_retire Hy H0)
        as (m & E & Hm).
      exists m. split; [exact E|]. rewrite Hm. reflexivity.
  - assert (Hpos : 0 < ir / 12).
    { apply Qlt_shift_div_l; [reflexivity|]. rewrite Qmult_0_l.
      apply Qlt_leneq. split; [exact Hir|].
      intro H. apply H0. rewrite <- H. reflexivity. }
    assert (Ht : 1 < (1 + ir / 12) ^ (years_to_retire * 12))
      by (apply Qpower_1_lt; [lra | lia]).
    exists (ir / 12 / ((1 + ir / 12) ^ (years_to_retire * 12) - 1)). split.
    + apply Qlt_shift_div_l; lra.
    + intros self t <-.
      assert (H2 : ~ investment_return self / 12 == -2) by lra.
      destruct (calc_monthly_savings_req_nonzero self t years_to_retire
                  Hy H0 H2) as (m & E & Hm).
      exists m. split; [exact E|]. rewrite Hm.
      set (T := (1 + investment_return self / 12) ^ (years_to_retire * 12))
        in *.
      field. lra.
Qed.

(** X8.  With a non-negative investment return and retirement ahead, the
    monthly requirement is zero or negative exactly when the savings,
    compounded monthly over the horizon, already reach the target. *)
Theorem monthly_req_sign (self : FinancialEngine)
    (target_corpus : Q) (years_to_retire : Z)
    (Hyears : (years_to_retire > 0)%Z)
    (Hreturn : 0 <= investment_return self) :
  exists monthly : Q,
    calc_monthly_savings_req self target_corpus years_to_retire
    = Ok monthly /\
    (monthly <= 0 <->
     target_corpus
     <= savings self
        * (1 + investment_return self / 12) ^ (years_to_retire * 12)).
Proof.
  destruct (payment_factor (investment_return self) years_to_retire Hreturn)
    as (c & Hc & Hm); [lia|].
  destruct (Hm self target_corpus eq_refl) as (m & E & Heq).
  exists m. split; [exact E|].
  rewrite Heq.
  set (T := (1 + investment_return self / 12) ^ (years_to_retire * 12)).
  setoid_replace 0 with (0 * c) at 1 by ring.
  rewrite Qmult_le_r by exact Hc.
  split; intro H; lra.
Qed.

Lemma monthly_req_sign_witness :
  exists monthly : Q,
    calc_monthly_savings_req sample_engine 3342175 1 = Ok monthly /\
    (monthly <= 0 <->
     3342175
     <= savings sample_engine
        * (1 + investment_return sample_engine / 12) ^ (1 * 12)).
Proof.
  apply (monthly_req_sign sample_engine 3342175 1).
  - reflexivity.
  - discriminate.
Defined.

(** X9.  With a non-negative investment return and retirement ahead, a
    higher target never lowers the monthly requirement and higher savings
    never raise it. *)
Theorem monthly_req_monotone (self : FinancialEngine)
    (target_corpus target_corpus' savings' : Q) (years_to_retire : Z)
    (Hyears : (years_to_retire > 0)%Z)
    (Hreturn : 0 <= investment_return self)
    (Htarget : target_corpus <= target_corpus')
    (Hsavings : savings self <= savings') :
  exists m m_target m_savings : Q,
    calc_monthly_savings_req self target_corpus years_to_retire = Ok m /\
    calc_monthly_savings_req self target_corpus' years_to_retire
    = Ok m_target /\
    calc_monthly_savings_req (set_savings savings' self) target_corpus
                             years_to_retire = Ok m_savings /\
    m <= m_target /\ m_savings <= m.
Proof.
  destruct (payment_factor (investment_return self) years_to_retire Hreturn)
    as (c & Hc & Hm); [lia|].
  destruct (Hm self target_corpus eq_refl) as (m & E & Heq).
  destruct (Hm self target_corpus' eq_refl) as (m1 & E1 & Heq1).
  destruct (Hm (set_savings savings' self) target_corpus eq_refl)
    as (m2 & E2 & Heq2).
  cbn [savings set_savings] in Heq2.
  exists m, m1, m2.
  split; [exact E|]. split; [exact E1|]. split; [exact E2|].
  assert (HT : 0 <= (1 + investment_return self / 12) ^ (years_to_retire * 12)).
  { apply Qpower_0_le.
    assert (0 <= investment_return self / 12)
      by (apply Qle_shift_div_l; [reflexivity | lra]).
    lra. }
  set (T := (1 + investment_return self / 12) ^ (years_to_retire * 12)) in *.
  rewrite Heq, Heq1, Heq2.
  split; apply Qmult_le_compat_r; try (now apply Qlt_le_weak).
  - lra.
  - assert (savings self * T <= savings' * T)
      by (apply Qmult_le_compat_r; assumption).
    lra.
Qed.

Lemma monthly_req_monotone_witness :
  exists m m_target m_savings : Q,
    calc_monthly_savings_req sample_engine 3342175 1 = Ok m /\
    calc_monthly_savings_req sample_engine 4000000 1 = Ok m_target /\
    calc_monthly_savings_req (set_savings 50000 sample_engine) 3342175 1
    = Ok m_savings /\
    m <= m_target /\ m_savings <= m.
Proof.
  apply (monthly_req_monotone sample_engine 3342175 4000000 50000 1).
  - reflexivity.
  - discriminate.
  - discriminate.
  - discriminate.
Defined.

(** ** The risk label as a table, and how the score moves *)

Ltac arith := solve [reflexivity | discriminate | lia | lra].

Ltac table_case :=
  repeat split; intros;
  try arith;
  try solve [left; repeat split; arith];
  try solve [right; repeat split; arith];
  try solve [intuition arith].

(** X10.  The label of [get_risk_profile] as a table of the years to
    retirement and the debt ratio: High for more than 20 years with a ratio
    below 1, or 11 to 20 years with a ratio below 0.3; Medium for 11 to 20
    years with a ratio from 0.3 to below 1, or at most 10 years with a ratio
    below 0.3; Low for a ratio of 1 or more, or at most 10 years with a ratio
    of 0.3 or more. *)
Theorem risk_label_table (self : FinancialEngine) :
  (get_risk_profile self = Ok High <->
   ((retire_age self - age self > 20)%Z /\ debt_ratio self < 1.0) \/
   ((10 < retire_age self - age self <= 20)%Z /\ debt_ratio self < 0.3)) /\
  (get_risk_profile self = Ok Medium <->
   ((10 < retire_age self - age self <= 20)%Z /\
    0.3 <= debt_ratio self /\ debt_ratio self < 1.0) \/
   ((retire_age self - age self <= 10)%Z /\ debt_ratio self < 0.3)) /\
  (get_risk_profile self = Ok Low <->
   1.0 <= debt_ratio self \/
   ((retire_age self - age self <= 10)%Z /\ 0.3 <= debt_ratio self)).
Proof.
  rewrite get_risk_profile_label.
  unfold label_of_score, horizon_points, leverage_points, High, Medium, Low.
  set (years := (retire_age self - age self)%Z).
  set (r := debt_ratio self).
  rewrite !Z.gtb_ltb.
  destruct (Z.ltb_spec 20 years); destruct (Z.ltb_spec 10 years);
    try (exfalso; lia);
    destruct (Py.ltb r 0.3) eqn:E1; destruct (Py.ltb r 1.0) eqn:E2;
    try apply ltb_true in E1; try apply ltb_false in E1;
    try apply ltb_true in E2; try apply ltb_false in E2;
    try (exfalso; lra);
    cbn [Z.add Z.geb Z.compare Pos.compare Pos.compare_cont Z.opp
         Z.pos_sub Z.succ_double Z.pred_double Z.double Pos.pred_double
         Pos.add Pos.succ];
    table_case.
Qed.

Section ScoreOrder.

Lemma horizon_points_mono (y1 y2 : Z) :
  (y1 <= y2)%Z -> (horizon_points y1 <= horizon_points y2)%Z.
Proof.
  intro H. unfold horizon_points. rewrite !Z.gtb_ltb.
  destruct (Z.ltb_spec 20 y1); destruct (Z.ltb_spec 10 y1);
    destruct (Z.ltb_spec 20 y2); destruct (Z.ltb_spec 10 y2); lia.
Qed.

Lemma leverage_points_antitone (r1 r2 : Q) :
  r1 <= r2 -> (leverage_points r2 <= leverage_points r1)%Z.
Proof.
  intro H. unfold leverage_points.
  destruct (Py.ltb r1 0.3) eqn:A1; destruct (Py.ltb r1 1.0) eqn:A2;
    destruct (Py.ltb r2 0.3) eqn:B1; destruct (Py.ltb r2 1.0) eqn:B2;
    try apply ltb_true in A1; try apply ltb_false in A1;
    try apply ltb_true in A2; try apply ltb_false in A2;
    try apply ltb_true in B1; try apply ltb_false in B1;
    try apply ltb_true in B2; try apply ltb_false in B2;
    try lia; exfalso; lra.
Qed.

Lemma debt_ratio_mono (self : FinancialEngine) (d1 d2 : Q) :
  d1 <= d2 -> debt_ratio (set_debt d1 self) <= debt_ratio (set_debt d2 self).
Proof.
  intro H. unfold debt_ratio. cbn [debt income set_debt]. unfold Qdiv.
  apply Qmult_le_compat_r; [exact H|].
  apply Qinv_le_0_compat.
  destruct (Py.ltb 0 (income self)) eqn:E.
  - apply ltb_true in E. now apply Qlt_le_weak.
  - discriminate.
Qed.

End ScoreOrder.

(** X11.  More debt never raises the risk score and a later retirement age
    never lowers it. *)
Theorem risk_score_monotone (self : FinancialEngine)
    (debt' : Q) (retire_age' : Z)
    (Hdebt : debt self <= debt')
    (Hretire : (retire_age self <= retire_age')%Z) :
  exists score score_debt score_retire : Z,
    risk_score self = Ok score /\
    risk_score (set_debt debt' self) = Ok score_debt /\
    risk_score (set_retire_age retire_age' self) = Ok score_retire /\
    (score_debt <= score)%Z /\ (score <= score_retire)%Z.
Proof.
  eexists _, _, _.
  split; [apply risk_score_components|].
  split; [apply risk_score_components|].
  split; [apply risk_score_components|].
  cbn [retire_age age set_debt set_retire_age].
  assert (H1 : (leverage_points (debt_ratio (set_debt debt' self))
                <= leverage_points (debt_ratio self))%Z).
  { apply leverage_points_antitone.
    assert (E : debt_ratio self = debt_ratio (set_debt (debt self) self))
      by reflexivity.
    rewrite E. apply debt_ratio_mono. exact Hdebt. }
  assert (H2 : (horizon_points (retire_age self - age self)
                <= horizon_points (retire_age' - age self))%Z)
    by (apply horizon_points_mono; lia).
  assert (E : debt_ratio (set_retire_age retire_age' self) = debt_ratio self)
    by reflexivity.
  rewrite E. lia.
Qed.

Lemma risk_score_monotone_witness :
  exists score score_debt score_retire : Z,
    risk_score sample_engine = Ok score /\
    risk_score (set_debt 90000 sample_engine) = Ok score_debt /\
    risk_score (set_retire_age 70 sample_engine) = Ok score_retire /\
    (score_debt <= score)%Z /\ (score <= score_retire)%Z.
Proof.
  apply (risk_score_monotone sample_engine 90000 70); discriminate.
Defined.

(** ** The calculations of [main] on widget values *)

Section Main.

Lemma calc_insurance_gap_default_total (self : FinancialEngine) :
  INSURANCE_DISCOUNT_RATE self == 0.03 ->
  exists net gross,
    calc_insurance_gap self = Ok (net, gross) /\ 0 <= net /\ 0 <= gross.
Proof.
  intro Hr.
  destruct (Z_le_gt_dec (dependents self) 0) as [Hd|Hd].
  - exists 0, 0. rewrite calc_insurance_gap_no_dependents by exact Hd.
    repeat split; apply Qle_refl.
  - destruct (calc_insurance_gap_default self) as (n & g & E & Hn & Hg);
      [lia | exact Hr |].
    exists n, g. split; [exact E|].
    rewrite Hn, Hg. split; apply max_0_nonneg.
Qed.

Lemma positive_return_rate (roi : Q) : 1.0 <= roi -> 0 < roi / 100 / 12.
Proof.
  intro H.
  apply Qlt_shift_div_l; [reflexivity|]. rewrite Qmult_0_l.
  apply Qlt_shift_div_l; [reflexivity|]. rewrite Qmult_0_l.
  lra.
Qed.

End Main.



(** X13.  Debt at or above the income is always Low: when the debt is at
    least the (positive) income, or at least 1 while the income is not
    positive (the ratio is then the debt itself), [get_risk_profile] returns
    the Low label however far retirement is. *)
Theorem debt_over_income_is_low (self : FinancialEngine)
    (Hdebt : (0 < income self /\ income self <= debt self) \/
             (income self <= 0 /\ 1 <= debt self)) :
  get_risk_profile self = Ok Low.
Proof.
  rewrite get_risk_profile_label. f_equal.
  assert (Hratio : 1.0 <= debt_ratio self).
  { destruct (debt_ratio_cases self) as [Hpos Hneg].
    destruct Hdebt as [[Hi Hd]|[Hi Hd]].
    - rewrite (Hpos Hi).
      apply Qle_shift_div_l; [exact Hi|]. lra.
    - rewrite Hneg by (intro H; exact (Qlt_not_le _ _ H Hi)).
      unfold Qdiv. setoid_replace (/ 1) with 1 by reflexivity. lra. }
  destruct (leverage_points_cases (debt_ratio self)) as (_ & _ & Hl).
  rewrite (Hl Hratio).
  apply label_of_score_cases.
  unfold horizon_points.
  destruct (_ >? 20)%Z; [lia|]. destruct (_ >? 10)%Z; lia.
Qed.

Lemma debt_over_income_is_low_witness :
  get_risk_profile (set_debt 85000 sample_engine) = Ok Low.
Proof.
  apply (debt_over_income_is_low (set_debt 85000 sample_engine)).
  left. split; [reflexivity | discriminate].
Defined.
